(** * s3gof3r: the public facade (s3gof3r.go) and its download reorder buffer

    The Go package state is modelled as explicit heaps, one per struct type
    that is used through a pointer ( *Config, *http.Client, *S3, *Bucket ),
    plus the two package-level variables DefaultConfig and DefaultDomain.
    Calls run in a small state monad whose results are either a returned
    value or a Go panic. *)

From Stdlib Require Import String Ascii ZArith List Lia.
From stdpp Require Import base gmap strings list.

Import ListNotations.
Open Scope Z_scope.

(* ------------------------------------------------------------------ *)
(** ** Go values *)

Abbreviation loc := nat.

(** A Go pointer: [None] is nil. *)
Definition ptr := option loc.

(** type Keys struct { AccessKey string; SecretKey string } *)
Record Keys := mkKeys { AccessKey : string; SecretKey : string }.

(** type S3 struct { Domain string; Keys } *)
Record S3 := mkS3 { Domain : string; S3_Keys : Keys }.

(** type Bucket struct { *S3; Name string } *)
Record Bucket := mkBucket { Bucket_S3 : ptr; Name : string }.

(** type Config struct { *http.Client; Concurrency int; PartSize int64;
    NTry int; Md5Check bool; Scheme string } *)
Record Config := mkConfig {
  Client : ptr;
  Concurrency : Z;
  PartSize : Z;
  NTry : Z;
  Md5Check : bool;
  Scheme : string
}.

(** Modelled from the spec: the *http.Client built by ClientWithTimeout
    (http_client.go, not under src/); the spec only says it is an HTTP
    client "with configurable timeout", so its one field is that timeout
    (a time.Duration, in nanoseconds). *)
Record http_Client := mk_http_Client { Timeout : Z }.

(** http.Header, map[string][]string, as an association list in the
    map's iteration order. *)
Definition Header := list (string * list string).

(** The part of net/url's url.URL that the code below constructs itself. *)
Record URL := mkURL {
  url_Scheme : string;
  url_Opaque : string;
  url_Host : string;
  url_Path : string;
  url_RawQuery : string;
  url_Fragment : string
}.

Definition empty_URL : URL := mkURL "" "" "" "" "" "".

(** *url.Error{Op, URL, Err} *)
Record url_Error := mkUrlError { err_Op : string; err_URL : string; err_Err : string }.

(** The value a Go panic carries. *)
Inductive panic_value :=
  | nil_dereference
  | url_panic (e : url_Error).

(** time.Second and the package constant clientTimeout = 5 * time.Second. *)
Definition time_Second : Z := 1000000000.
Definition clientTimeout : Z := 5 * time_Second.

(** Modelled from the spec: the constant mb (declared outside src/), one
    MiB, so that "PartSize: 20 * mb" is the spec's "partSize=20MiB". *)
Definition mb : Z := 1024 * 1024.

(* ------------------------------------------------------------------ *)
(** ** Package state and the state/panic monad *)

Record State := mkState {
  configs : gmap loc Config;
  clients : gmap loc http_Client;
  s3s : gmap loc S3;
  buckets : gmap loc Bucket;
  next_loc : loc;
  DefaultConfig : ptr;      (* var DefaultConfig = &Config{...} *)
  DefaultDomain : string    (* var DefaultDomain = "s3.amazonaws.com" *)
}.

Definition set_configs (st : State) (m : gmap loc Config) : State :=
  mkState m (clients st) (s3s st) (buckets st) (next_loc st) (DefaultConfig st) (DefaultDomain st).
Definition set_clients (st : State) (m : gmap loc http_Client) : State :=
  mkState (configs st) m (s3s st) (buckets st) (next_loc st) (DefaultConfig st) (DefaultDomain st).
Definition set_s3s (st : State) (m : gmap loc S3) : State :=
  mkState (configs st) (clients st) m (buckets st) (next_loc st) (DefaultConfig st) (DefaultDomain st).
Definition set_buckets (st : State) (m : gmap loc Bucket) : State :=
  mkState (configs st) (clients st) (s3s st) m (next_loc st) (DefaultConfig st) (DefaultDomain st).
Definition set_next_loc (st : State) (n : loc) : State :=
  mkState (configs st) (clients st) (s3s st) (buckets st) n (DefaultConfig st) (DefaultDomain st).

Inductive go_result (A : Type) :=
  | Ret (a : A)
  | Panic (p : panic_value).
Arguments Ret {A} a.
Arguments Panic {A} p.

Definition M (A : Type) := State -> State * go_result A.

Definition mret {A} (a : A) : M A := fun st => (st, Ret a).
Definition go_panic {A} (p : panic_value) : M A := fun st => (st, Panic p).
Definition mbind {A B} (m : M A) (k : A -> M B) : M B :=
  fun st => match m st with
            | (st', Ret a) => k a st'
            | (st', Panic p) => (st', Panic p)
            end.

Notation "x <- m ;; k" := (mbind m (fun x => k))
  (at level 100, m at next level, right associativity).

(** Reads and writes of the heaps; dereferencing nil panics. *)
Definition load_config (c : ptr) : M Config := fun st =>
  match c with
  | Some l => match configs st !! l with
              | Some cfg => (st, Ret cfg)
              | None => (st, Panic nil_dereference)
              end
  | None => (st, Panic nil_dereference)
  end.

Definition load_bucket (b : ptr) : M Bucket := fun st =>
  match b with
  | Some l => match buckets st !! l with
              | Some bk => (st, Ret bk)
              | None => (st, Panic nil_dereference)
              end
  | None => (st, Panic nil_dereference)
  end.

Definition load_s3 (s : ptr) : M S3 := fun st =>
  match s with
  | Some l => match s3s st !! l with
              | Some x => (st, Ret x)
              | None => (st, Panic nil_dereference)
              end
  | None => (st, Panic nil_dereference)
  end.

(** c.Client = cl *)
Definition store_config_Client (c : ptr) (cl : ptr) : M unit := fun st =>
  match c with
  | Some l => match configs st !! l with
              | Some cfg =>
                  (set_configs st (<[l := mkConfig cl (Concurrency cfg) (PartSize cfg)
                                     (NTry cfg) (Md5Check cfg) (Scheme cfg)]> (configs st)),
                   Ret tt)
              | None => (st, Panic nil_dereference)
              end
  | None => (st, Panic nil_dereference)
  end.

Definition fresh : M loc := fun st => (set_next_loc st (S (next_loc st)), Ret (next_loc st)).

Definition alloc_client (x : http_Client) : M ptr :=
  l <- fresh ;; fun st => (set_clients st (<[l := x]> (clients st)), Ret (Some l)).
Definition alloc_s3 (x : S3) : M ptr :=
  l <- fresh ;; fun st => (set_s3s st (<[l := x]> (s3s st)), Ret (Some l)).
Definition alloc_bucket (x : Bucket) : M ptr :=
  l <- fresh ;; fun st => (set_buckets st (<[l := x]> (buckets st)), Ret (Some l)).

Definition get_DefaultConfig : M ptr := fun st => (st, Ret (DefaultConfig st)).
Definition get_DefaultDomain : M string := fun st => (st, Ret (DefaultDomain st)).

(* ------------------------------------------------------------------ *)
(** ** The download reorder buffer *)

(** Modelled from the spec: the reorder buffer of the Getter (getter.go,
    not under src/), following section 4.2: "as each part's bytes arrive
    they are buffered (not yet delivered) until the part's index equals the
    stream's next expected index; then all contiguous ready parts starting
    at that index are delivered to the reader's output in order and evicted
    from the buffer". The buffer is a map from part index to payload. *)
Module Reorder.

Record getter := mkGetter {
  next_index : nat;
  buffer : gmap nat (list Byte.byte);
  delivered : list Byte.byte
}.

(** Deliver the contiguous ready parts starting at [next_index]; every
    round evicts one entry, so [size buffer] rounds suffice. *)
Fixpoint flush (fuel : nat) (g : getter) : getter :=
  match fuel with
  | O => g
  | S fuel' =>
      match buffer g !! next_index g with
      | Some p =>
          flush fuel' (mkGetter (S (next_index g)) (delete (next_index g) (buffer g))
                                (delivered g ++ p))
      | None => g
      end
  end.

(** A worker completes part [i] with payload [p]. *)
Definition arrive (g : getter) (i : nat) (p : list Byte.byte) : getter :=
  let g' := mkGetter (next_index g) (<[i := p]> (buffer g)) (delivered g) in
  flush (size (buffer g')) g'.

Definition start : getter := mkGetter 0 ∅ [].

(** The responses for parts [parts i] arrive in the order [arrival]. *)
Definition download (parts : nat -> list Byte.byte) (arrival : list nat) : getter :=
  fold_left (fun g i => arrive g i (parts i)) arrival start.

(** The state of the buffer once the parts [A] have arrived: every part
    below [next_index] has arrived and been delivered in index order, and
    the buffer holds exactly the arrived parts from [next_index] on. *)
Definition ready_inv (parts : nat -> list Byte.byte) (A : list nat) (g : getter) : Prop :=
  (forall i, i < next_index g -> i ∈ A)%nat /\
  (forall i, buffer g !! i =
     if decide (i ∈ A /\ next_index g <= i)%nat then Some (parts i) else None) /\
  delivered g = concat (map parts (seq 0 (next_index g))).

End Reorder.

(* ------------------------------------------------------------------ *)
(** ** http.Header *)

(** h.Values(k) on the association list: the values of the first entry
    with key k. *)
Fixpoint header_Values (h : Header) (k : string) : list string :=
  match h with
  | [] => []
  | (k', vs) :: h' => if String.eqb k k' then vs else header_Values h' k
  end.

(** h.Add(k, v): append v to the values of key k. *)
Fixpoint header_Add (h : Header) (k v : string) : Header :=
  match h with
  | [] => [(k, [v])]
  | (k', vs) :: h' =>
      if String.eqb k k' then (k', vs ++ [v]) :: h' else (k', vs) :: header_Add h' k v
  end.

(** for k := range h { for _, v := range h[k] { r.Add(k, v) } } *)
Definition add_headers (r : Header) (h : Header) : Header :=
  fold_left (fun r kv => fold_left (fun r v => header_Add r (fst kv) v) (snd kv) r) h r.

(* ------------------------------------------------------------------ *)
(** ** Transfers *)

(** Modelled from the spec: newGetter and newPutter (getter.go and
    putter.go, not under src/). The spec's config is "an immutable
    configuration snapshot captured at transfer start" and "a transfer never
    mutates its config after start"; so a call of either constructor is
    represented by the transfer it starts, which records the arguments it
    receives, and it has no effect on the package heaps. *)
Inductive transfer :=
  | Getting (u : URL) (c : ptr) (b : ptr)
  | Putting (u : URL) (h : Header) (c : ptr) (b : ptr).

Definition newGetter (u : URL) (c : ptr) (b : ptr) : M transfer := mret (Getting u c b).
Definition newPutter (u : URL) (h : Header) (c : ptr) (b : ptr) : M transfer :=
  mret (Putting u h c b).

(** Modelled from the spec: the header of the request by which newPutter
    creates the object. The spec: the upload entry point "accepts
    caller-supplied headers to attach to the created object"; the comment of
    PutWriter: "Each header in h is added to the HTTP request header". *)
Definition initiate_request_header (t : transfer) : Header :=
  match t with
  | Putting _ h _ _ => add_headers [] h
  | Getting _ _ _ => []
  end.

(** Modelled from the spec: ClientWithTimeout (http_client.go, not under
    src/) allocates a new HTTP client with the given timeout. *)
Definition ClientWithTimeout (timeout : Z) : M ptr := alloc_client (mk_http_Client timeout).

(* ------------------------------------------------------------------ *)
(** ** The package *)

(** var DefaultConfig = &Config{...}: the value it points to. *)
Definition DefaultConfig_value : Config :=
  {| Client := None;
     Concurrency := 10;
     PartSize := 20 * mb;
     NTry := 10;
     Md5Check := true;
     Scheme := "https" |}.

(** The package state after initialization: DefaultConfig points to a
    fresh Config, DefaultDomain holds its initializer. *)
Definition init_state : State :=
  {| configs := {[ 0%nat := DefaultConfig_value ]};
     clients := ∅;
     s3s := ∅;
     buckets := ∅;
     next_loc := 1%nat;
     DefaultConfig := Some 0%nat;
     DefaultDomain := "s3.amazonaws.com" |}.

(** func New(domain string, keys Keys) *S3 *)
Definition New (domain : string) (keys : Keys) : M ptr :=
  domain <- (if String.eqb domain "" then get_DefaultDomain else mret domain) ;;
  alloc_s3 (mkS3 domain keys).

(** func (s3 *S3) Bucket(name string) *Bucket *)
Definition S3_Bucket (s3 : ptr) (name : string) : M ptr :=
  alloc_bucket (mkBucket s3 name).

(** fmt.Sprintf("%s://%s.%s/%s", scheme, name, domain, path) *)
Definition Sprintf_url (scheme name domain path : string) : string :=
  (scheme ++ "://" ++ name ++ "." ++ domain ++ "/" ++ path)%string.

(** *** net/url: Parse up to the scheme *)

(** strings.Cut(s, "#") *)
Fixpoint cut_hash (s : string) : string * string * bool :=
  match s with
  | EmptyString => (""%string, ""%string, false)
  | String c s' =>
      if Ascii.eqb c "#"%char then (""%string, s', true)
      else let '(before, after, found) := cut_hash s' in (String c before, after, found)
  end.

(** stringContainsCTLByte: a byte < 0x20 or 0x7f *)
Definition stringContainsCTLByte (s : string) : bool :=
  existsb (fun b => (Ascii.nat_of_ascii b <? 32)%nat || (Ascii.nat_of_ascii b =? 127)%nat)
          (list_ascii_of_string s).

Definition is_letter (c : ascii) : bool :=
  let n := Ascii.nat_of_ascii c in ((97 <=? n) && (n <=? 122))%nat || ((65 <=? n) && (n <=? 90))%nat.

Definition is_digit_or_sign (c : ascii) : bool :=
  let n := Ascii.nat_of_ascii c in
  ((48 <=? n) && (n <=? 57))%nat || Ascii.eqb c "+"%char || Ascii.eqb c "-"%char
  || Ascii.eqb c "."%char.

(** The loop of getScheme: [i] bytes of [rawURL] have been scanned and [s]
    is rawURL[i:]. The result is (scheme, path, err). *)
Fixpoint getScheme_loop (i : nat) (s rawURL : string) : string * string * option string :=
  match s with
  | EmptyString => (""%string, rawURL, None)
  | String c s' =>
      if is_letter c then getScheme_loop (S i) s' rawURL
      else if is_digit_or_sign c then
        (if (i =? 0)%nat then (""%string, rawURL, None) else getScheme_loop (S i) s' rawURL)
      else if Ascii.eqb c ":"%char then
        (if (i =? 0)%nat then (""%string, ""%string, Some "missing protocol scheme"%string)
         else (substring 0 i rawURL, s', None))
      else (""%string, rawURL, None)
  end.

Definition getScheme (rawURL : string) : string * string * option string :=
  getScheme_loop 0 rawURL rawURL.

(** Example fixtures: a concrete instance of the part of net/url that is
    left abstract below, and a state with one account (at 1), one bucket
    (at 2) and two caller configs (at 7 and 8, the latter without a
    scheme). *)
Definition example_parse_rest (scheme rest : string) : string + URL :=
  inr (mkURL scheme "" "" rest "" "").

Definition example_setFragment (u : URL) (frag : string) : string + URL :=
  inr (mkURL (url_Scheme u) (url_Opaque u) (url_Host u) (url_Path u) (url_RawQuery u) frag).

Definition example_config : Config := mkConfig None 4 (5 * mb) 3 false "https".
Definition example_config_no_scheme : Config := mkConfig None 10 (20 * mb) 10 true "".

Definition example_state : State :=
  let st := fst (S3_Bucket (Some 1%nat) "bucket" (fst (New "" (mkKeys "AKID" "SECRET") init_state))) in
  set_configs st (<[8%nat := example_config_no_scheme]> (<[7%nat := example_config]> (configs st))).

Definition example_header : Header :=
  [("x-amz-server-side-encryption", ["AES256"]); ("x-amz-meta-tag", ["a"; "b"])]%string.

Section Package.

(** net/url's parse after the scheme is split off (lowercasing the scheme,
    the authority, the path and the query) and url.setFragment: library
    code, left abstract; every claim below holds for all of them. *)
Variable parse_rest : string -> string -> string + URL.
Variable setFragment : URL -> string -> string + URL.

(** func parse(rawURL string, viaRequest bool) ( *URL, error) *)
Definition parse (rawURL : string) (viaRequest : bool) : string + URL :=
  if stringContainsCTLByte rawURL then inl "net/url: invalid control character in URL"%string
  else if String.eqb rawURL "" && viaRequest then inl "empty url"%string
  else if String.eqb rawURL "*" then
    inr (mkURL "" "" "" "*" "" "")
  else
    match getScheme rawURL with
    | (_, _, Some err) => inl err
    | (scheme, rest, None) => parse_rest scheme rest
    end.

(** func Parse(rawURL string) ( *URL, error) *)
Definition url_Parse (rawURL : string) : url_Error + URL :=
  let '(u, frag, _) := cut_hash rawURL in
  match parse u false with
  | inl err => inl (mkUrlError "parse" u err)
  | inr url =>
      if String.eqb frag "" then inr url
      else match setFragment url frag with
           | inl err => inl (mkUrlError "parse" rawURL err)
           | inr url' => inr url'
           end
  end.

(** func (b *Bucket) Url(path string, c *Config) url.URL *)
Definition Bucket_Url (b : ptr) (path : string) (c : ptr) : M URL :=
  cfg <- load_config c ;;
  bk <- load_bucket b ;;
  s3 <- load_s3 (Bucket_S3 bk) ;;
  match url_Parse (Sprintf_url (Scheme cfg) (Name bk) (Domain s3) path) with
  | inl err => go_panic (url_panic err)
  | inr url_ => mret url_
  end.

(** func (b *Bucket) GetReader(path string, c *Config) *)
Definition Bucket_GetReader (b : ptr) (path : string) (c : ptr) : M transfer :=
  c <- (match c with None => get_DefaultConfig | Some _ => mret c end) ;;
  cfg <- load_config c ;;
  _ <- (match Client cfg with
        | None => cl <- ClientWithTimeout clientTimeout ;; store_config_Client c cl
        | Some _ => mret tt
        end) ;;
  u <- Bucket_Url b path c ;;
  newGetter u c b.

(** func (b *Bucket) PutWriter(path string, h http.Header, c *Config) *)
Definition Bucket_PutWriter (b : ptr) (path : string) (h : Header) (c : ptr) : M transfer :=
  c <- (match c with None => get_DefaultConfig | Some _ => mret c end) ;;
  cfg <- load_config c ;;
  _ <- (match Client cfg with
        | None => cl <- ClientWithTimeout clientTimeout ;; store_config_Client c cl
        | Some _ => mret tt
        end) ;;
  u <- Bucket_Url b path c ;;
  newPutter u h c b.

(** The calls of the package a program can make, in sequence; a call
    that panics leaves the heaps as they were when it panicked. *)
Inductive op :=
  | OpNew (domain : string) (keys : Keys)
  | OpBucket (s3 : ptr) (name : string)
  | OpGetReader (b : ptr) (path : string) (c : ptr)
  | OpPutWriter (b : ptr) (path : string) (h : Header) (c : ptr).

Definition run_op (o : op) (st : State) : State :=
  match o with
  | OpNew d k => fst (New d k st)
  | OpBucket s n => fst (S3_Bucket s n st)
  | OpGetReader b p c => fst (Bucket_GetReader b p c st)
  | OpPutWriter b p h c => fst (Bucket_PutWriter b p h c st)
  end.

Fixpoint run_ops (os : list op) (st : State) : State :=
  match os with
  | [] => st
  | o :: os' => run_ops os' (run_op o st)
  end.

(** A config [cfg'] is [cfg] with at most its nil client replaced. *)
Definition client_installed (cfg cfg' : Config) : Prop :=
  Concurrency cfg' = Concurrency cfg /\ PartSize cfg' = PartSize cfg /\
  NTry cfg' = NTry cfg /\ Md5Check cfg' = Md5Check cfg /\ Scheme cfg' = Scheme cfg /\
  (Client cfg <> None -> cfg' = cfg).

(** The heaps after the two guards GetReader and PutWriter share, for
    the config pointer [c] they end up with. *)
Definition install_client_effect (c : ptr) (st : State) : State :=
  match c with
  | Some l =>
      match configs st !! l with
      | Some cfg =>
          match Client cfg with
          | Some _ => st
          | None =>
              set_configs
                (set_clients (set_next_loc st (S (next_loc st)))
                   (<[next_loc st := mk_http_Client clientTimeout]> (clients st)))
                (<[l := mkConfig (Some (next_loc st)) (Concurrency cfg) (PartSize cfg)
                         (NTry cfg) (Md5Check cfg) (Scheme cfg)]> (configs st))
          end
      | None => st
      end
  | None => st
  end.

(** The config pointer a transfer was started with. *)
Definition transfer_config (t : transfer) : ptr :=
  match t with
  | Getting _ c _ => c
  | Putting _ _ c _ => c
  end.

(* ------------------------------------------------------------------ *)
(** ** Proofs about the package *)

Ltac go_unfold :=
  unfold Bucket_GetReader, Bucket_PutWriter, Bucket_Url, newGetter, newPutter,
    ClientWithTimeout, alloc_client, fresh, store_config_Client, load_config,
    load_bucket, load_s3, get_DefaultConfig, mbind, mret, go_panic in *; simpl in *.

Lemma Bucket_Url_state (b : ptr) (path : string) (c : ptr) (st : State) :
  fst (Bucket_Url b path c st) = st.
Proof. go_unfold. repeat (case_match; simplify_eq/=); reflexivity. Qed.

Lemma Bucket_Url_then_state {A} (b : ptr) (path : string) (c : ptr) (k : URL -> M A)
    (st : State) :
  (forall u s, fst (k u s) = s) ->
  fst ((u <- Bucket_Url b path c ;; k u) st) = st.
Proof.
  intros Hk. unfold mbind at 1.
  pose proof (Bucket_Url_state b path c st) as HU.
  destruct (Bucket_Url b path c st) as [s [u|p]]; simpl in *; [rewrite Hk|]; congruence.
Qed.

(** The heaps after GetReader or PutWriter on the config [Some l]: the
    state the Url call and the transfer see. *)
Lemma GetReader_PutWriter_state (b : ptr) (path : string) (h : Header) (l : loc)
    (cfg : Config) (st : State) :
  configs st !! l = Some cfg ->
  fst (Bucket_GetReader b path (Some l) st) =
    (match Client cfg with
     | Some _ => st
     | None =>
         set_configs
           (set_clients (set_next_loc st (S (next_loc st)))
              (<[next_loc st := mk_http_Client clientTimeout]> (clients st)))
           (<[l := mkConfig (Some (next_loc st)) (Concurrency cfg) (PartSize cfg)
                    (NTry cfg) (Md5Check cfg) (Scheme cfg)]> (configs st))
     end) /\
  fst (Bucket_PutWriter b path h (Some l) st) = fst (Bucket_GetReader b path (Some l) st).
Proof.
  intros Hl.
  unfold Bucket_GetReader, Bucket_PutWriter, ClientWithTimeout, alloc_client, fresh,
    store_config_Client, load_config.
  unfold mbind, mret. cbn -[Bucket_Url]. rewrite Hl.
  destruct (Client cfg) eqn:Hc; simpl.
  - pose proof (Bucket_Url_state b path (Some l) st) as HU.
    destruct (Bucket_Url b path (Some l) st) as [s [u|p]]; simpl in *; subst; auto.
  - unfold set_clients, set_next_loc; simpl. rewrite Hl; simpl.
    match goal with |- context [Bucket_Url b path (Some l) ?S] =>
      pose proof (Bucket_Url_state b path (Some l) S) as HU;
      destruct (Bucket_Url b path (Some l) S) as [s [u|p]] end;
    simpl in *; subst; auto.
Qed.

Lemma GetReader_nil_config (b : ptr) (path : string) (st : State) :
  Bucket_GetReader b path None st = Bucket_GetReader b path (DefaultConfig st) st.
Proof.
  destruct (DefaultConfig st) eqn:E; [unfold Bucket_GetReader at 1, mbind at 1; simpl; rewrite E; reflexivity|].
  unfold Bucket_GetReader, mbind, get_DefaultConfig; simpl. rewrite E. reflexivity.
Qed.

Lemma PutWriter_nil_config (b : ptr) (path : string) (h : Header) (st : State) :
  Bucket_PutWriter b path h None st = Bucket_PutWriter b path h (DefaultConfig st) st.
Proof.
  destruct (DefaultConfig st) eqn:E; [unfold Bucket_PutWriter at 1, mbind at 1; simpl; rewrite E; reflexivity|].
  unfold Bucket_PutWriter, mbind, get_DefaultConfig; simpl. rewrite E. reflexivity.
Qed.

(** The config pointer the guards of GetReader and PutWriter settle on. *)
Lemma GetReader_PutWriter_effect (b : ptr) (path : string) (h : Header) (c : ptr)
    (st : State) :
  let ceff := match c with None => DefaultConfig st | Some _ => c end in
  fst (Bucket_GetReader b path c st) = install_client_effect ceff st /\
  fst (Bucket_PutWriter b path h c st) = install_client_effect ceff st.
Proof.
  intros ceff.
  assert (Hc : Bucket_GetReader b path c st = Bucket_GetReader b path ceff st /\
               Bucket_PutWriter b path h c st = Bucket_PutWriter b path h ceff st).
  { subst ceff. destruct c; [split; reflexivity|].
    rewrite GetReader_nil_config, PutWriter_nil_config. auto. }
  destruct Hc as [-> ->].
  destruct ceff as [l|] eqn:Hceff.
  - destruct (configs st !! l) as [cfg|] eqn:Hl.
    + destruct (GetReader_PutWriter_state b path h l cfg st Hl) as [H1 H2].
      rewrite H2, H1. unfold install_client_effect. rewrite Hl. auto.
    + unfold install_client_effect. rewrite Hl.
      unfold Bucket_GetReader, Bucket_PutWriter, load_config, mbind, mret. simpl.
      rewrite Hl. auto.
  - assert (Hd : DefaultConfig st = None)
      by (subst ceff; destruct c; [discriminate | exact Hceff]).
    unfold install_client_effect, Bucket_GetReader, Bucket_PutWriter, load_config,
      get_DefaultConfig, mbind, mret. simpl. rewrite Hd. auto.
Qed.

Lemma install_client_effect_globals (c : ptr) (st : State) :
  let st' := install_client_effect c st in
  DefaultConfig st' = DefaultConfig st /\ DefaultDomain st' = DefaultDomain st /\
  s3s st' = s3s st /\ buckets st' = buckets st.
Proof.
  unfold install_client_effect.
  destruct c as [l|]; [|auto]. destruct (configs st !! l) as [cfg|]; [|auto].
  destruct (Client cfg); auto.
Qed.

Lemma install_client_effect_configs (c : ptr) (st : State) (l' : loc) (cfg : Config) :
  configs st !! l' = Some cfg ->
  exists cfg', configs (install_client_effect c st) !! l' = Some cfg' /\
               client_installed cfg cfg'.
Proof.
  intros Hl'. unfold install_client_effect, client_installed.
  destruct c as [l|]; [|exists cfg; repeat split; auto].
  destruct (configs st !! l) as [cfg0|] eqn:Hl; [|exists cfg; repeat split; auto].
  destruct (Client cfg0) eqn:Hc0; [exists cfg; repeat split; auto|].
  simpl. destruct (decide (l = l')) as [<-|Hne].
  - rewrite lookup_insert_eq. rewrite Hl' in Hl. injection Hl as <-.
    eexists; split; [reflexivity|]. simpl. repeat split; auto. congruence.
  - rewrite lookup_insert_ne by auto. exists cfg; repeat split; auto.
Qed.

Lemma client_installed_refl (cfg : Config) : client_installed cfg cfg.
Proof. unfold client_installed. repeat split; auto. Qed.

Lemma client_installed_trans (c1 c2 c3 : Config) :
  client_installed c1 c2 -> client_installed c2 c3 -> client_installed c1 c3.
Proof.
  unfold client_installed. intros (A1 & B1 & C1 & D1 & E1 & F1) (A2 & B2 & C2 & D2 & E2 & F2).
  repeat split; try congruence.
  intros Hc. rewrite F2; [apply F1, Hc|]. rewrite F1 by exact Hc. exact Hc.
Qed.

Lemma run_op_frame (o : op) (st : State) :
  let st' := run_op o st in
  DefaultConfig st' = DefaultConfig st /\ DefaultDomain st' = DefaultDomain st /\
  (forall l cfg, configs st !! l = Some cfg ->
     exists cfg', configs st' !! l = Some cfg' /\ client_installed cfg cfg').
Proof.
  destruct o as [d k | s n | b p c | b p h c]; simpl.
  - unfold New, alloc_s3, fresh, get_DefaultDomain, mbind, mret.
    destruct (String.eqb d "") ; simpl; repeat split; auto;
      intros l cfg Hl; exists cfg; split; auto using client_installed_refl.
  - unfold S3_Bucket, alloc_bucket, fresh, mbind, mret; simpl. repeat split; auto.
    intros l cfg Hl; exists cfg; split; auto using client_installed_refl.
  - destruct (GetReader_PutWriter_effect b p [] c st) as [-> _].
    destruct (install_client_effect_globals (match c with None => DefaultConfig st | Some _ => c end) st)
      as (G1 & G2 & _).
    repeat split; auto. intros l cfg Hl. eapply install_client_effect_configs; eauto.
  - destruct (GetReader_PutWriter_effect b p h c st) as [_ ->].
    destruct (install_client_effect_globals (match c with None => DefaultConfig st | Some _ => c end) st)
      as (G1 & G2 & _).
    repeat split; auto. intros l cfg Hl. eapply install_client_effect_configs; eauto.
Qed.

Lemma run_ops_frame (os : list op) (st : State) :
  let st' := run_ops os st in
  DefaultConfig st' = DefaultConfig st /\ DefaultDomain st' = DefaultDomain st /\
  (forall l cfg, configs st !! l = Some cfg ->
     exists cfg', configs st' !! l = Some cfg' /\ client_installed cfg cfg').
Proof.
  revert st. induction os as [|o os IH]; intros st; simpl.
  - repeat split; auto. intros l cfg Hl. exists cfg. auto using client_installed_refl.
  - destruct (run_op_frame o st) as (A1 & B1 & C1).
    destruct (IH (run_op o st)) as (A2 & B2 & C2).
    repeat split; try congruence.
    intros l cfg Hl. destruct (C1 l cfg Hl) as (cfg1 & H1 & I1).
    destruct (C2 l cfg1 H1) as (cfg2 & H2 & I2).
    exists cfg2. split; [exact H2|]. eapply client_installed_trans; eauto.
Qed.

Lemma GetReader_transfer (b : ptr) (path : string) (c : ptr) (st : State) (t : transfer) :
  snd (Bucket_GetReader b path c st) = Ret t ->
  exists u, t = Getting u (match c with None => DefaultConfig st | Some _ => c end) b.
Proof.
  destruct c as [l|].
  - go_unfold. repeat (case_match; simplify_eq/=); intros; simplify_eq/=; eauto.
  - rewrite GetReader_nil_config. destruct (DefaultConfig st) as [l|] eqn:E.
    + go_unfold. repeat (case_match; simplify_eq/=); intros; simplify_eq/=; eauto.
    + go_unfold. rewrite E. simpl. discriminate.
Qed.

Lemma PutWriter_transfer (b : ptr) (path : string) (h : Header) (c : ptr) (st : State)
    (t : transfer) :
  snd (Bucket_PutWriter b path h c st) = Ret t ->
  exists u, t = Putting u h (match c with None => DefaultConfig st | Some _ => c end) b.
Proof.
  destruct c as [l|].
  - go_unfold. repeat (case_match; simplify_eq/=); intros; simplify_eq/=; eauto.
  - rewrite PutWriter_nil_config. destruct (DefaultConfig st) as [l|] eqn:E.
    + go_unfold. repeat (case_match; simplify_eq/=); intros; simplify_eq/=; eauto.
    + go_unfold. rewrite E. simpl. discriminate.
Qed.

(* ------------------------------------------------------------------ *)
(** ** Claims about the facade *)

(** C1 (corrected). GetReader(path, c) and PutWriter(path, h, c) with a
    non-nil config c leave every config other than c as it was, and leave c
    itself unchanged when its http.Client field is non-nil; when that field
    is nil they store into c a new default client with the 5 second
    timeout, keeping every other field of c. *)
Theorem GetReader_PutWriter_mutate_only_nil_Client (b : ptr) (path : string) (h : Header)
    (l : loc) (cfg : Config) (st : State) :
  configs st !! l = Some cfg ->
  forall st', st' = fst (Bucket_GetReader b path (Some l) st) \/
              st' = fst (Bucket_PutWriter b path h (Some l) st) ->
  (forall l', l' <> l -> configs st' !! l' = configs st !! l') /\
  (forall x, Client cfg = Some x -> configs st' !! l = Some cfg) /\
  (Client cfg = None ->
     exists cl, configs st' !! l = Some (mkConfig (Some cl) (Concurrency cfg) (PartSize cfg)
                                          (NTry cfg) (Md5Check cfg) (Scheme cfg)) /\
                clients st' !! cl = Some (mk_http_Client clientTimeout)).
Proof.
  intros Hl st' Hst'.
  assert (E : st' = install_client_effect (Some l) st).
  { destruct (GetReader_PutWriter_effect b path h (Some l) st) as [E1 E2].
    destruct Hst' as [-> | ->]; assumption. }
  subst st'. unfold install_client_effect. rewrite Hl.
  destruct (Client cfg) as [x|] eqn:Hc.
  - split; [|split]; [auto | intros x' _; exact Hl | discriminate].
  - simpl. repeat split.
    + intros l' Hne. rewrite lookup_insert_ne by congruence. reflexivity.
    + intros x' Hx'. discriminate.
    + intros _. exists (next_loc st). rewrite !lookup_insert_eq. auto.
Qed.

(** The guard of GetReader and PutWriter on a config whose http.Client
    field is nil: the config gets the client allocated at [next_loc]. *)
Lemma install_client_effect_nil_client (st : State) (l : loc) (cfg : Config) :
  configs st !! l = Some cfg -> Client cfg = None ->
  configs (install_client_effect (Some l) st) !! l =
    Some (mkConfig (Some (next_loc st)) (Concurrency cfg) (PartSize cfg) (NTry cfg)
            (Md5Check cfg) (Scheme cfg)) /\
  clients (install_client_effect (Some l) st) !! next_loc st =
    Some (mk_http_Client clientTimeout).
Proof.
  intros Hl Hc. unfold install_client_effect. rewrite Hl, Hc. simpl.
  split; apply lookup_insert_eq.
Qed.

(** The guard on a config whose http.Client field is set changes nothing. *)
Lemma install_client_effect_set_client (st : State) (l : loc) (cfg : Config) :
  configs st !! l = Some cfg -> Client cfg <> None ->
  install_client_effect (Some l) st = st.
Proof.
  intros Hl Hc. unfold install_client_effect. rewrite Hl.
  destruct (Client cfg); [reflexivity | congruence].
Qed.

(** C2 (corrected). DefaultConfig is a shared mutable global. Along any
    sequence of package calls the pointer DefaultConfig is never
    reassigned, the Concurrency, PartSize, NTry, Md5Check and Scheme of
    the config it points to are preserved, and its http.Client field is
    kept once non-nil. When that field is nil, a GetReader or PutWriter
    call that settles on DefaultConfig (e.g. one with a nil Config) stores
    a new default client (5 second timeout) into it, keeping its other
    fields; after any further calls, every GetReader or PutWriter with a
    nil Config finds DefaultConfig holding that same client and starts its
    transfer with the DefaultConfig pointer. *)
Theorem DefaultConfig_shared_fields_preserved (os : list op) (st : State) (l : loc)
    (cfg : Config) :
  DefaultConfig st = Some l -> configs st !! l = Some cfg ->
  (DefaultConfig (run_ops os st) = Some l /\
   exists cfg', configs (run_ops os st) !! l = Some cfg' /\
     Concurrency cfg' = Concurrency cfg /\ PartSize cfg' = PartSize cfg /\
     NTry cfg' = NTry cfg /\ Md5Check cfg' = Md5Check cfg /\ Scheme cfg' = Scheme cfg /\
     (Client cfg <> None -> cfg' = cfg)) /\
  (Client cfg = None ->
   forall (b : ptr) (path : string) (h : Header) (c : ptr) (st1 : State),
     match c with None => DefaultConfig st | Some _ => c end = Some l ->
     st1 = fst (Bucket_GetReader b path c st) \/ st1 = fst (Bucket_PutWriter b path h c st) ->
     exists cl : loc,
       configs st1 !! l = Some (mkConfig (Some cl) (Concurrency cfg) (PartSize cfg)
                                  (NTry cfg) (Md5Check cfg) (Scheme cfg)) /\
       clients st1 !! cl = Some (mk_http_Client clientTimeout) /\
       forall (os' : list op) (b' : ptr) (path' : string) (h' : Header)
              (r : State * go_result transfer),
         r = Bucket_GetReader b' path' None (run_ops os' st1) \/
         r = Bucket_PutWriter b' path' h' None (run_ops os' st1) ->
         configs (fst r) !! l = Some (mkConfig (Some cl) (Concurrency cfg) (PartSize cfg)
                                        (NTry cfg) (Md5Check cfg) (Scheme cfg)) /\
         (forall t, snd r = Ret t -> transfer_config t = Some l)).
Proof.
  intros Hd Hl. split.
  { destruct (run_ops_frame os st) as (A & _ & C).
    split; [congruence|]. exact (C l cfg Hl). }
  intros HcN b path h c st1 Hc Hst1.
  assert (E : st1 = install_client_effect (Some l) st).
  { destruct (GetReader_PutWriter_effect b path h c st) as [E1 E2].
    rewrite Hc in E1, E2. destruct Hst1; congruence. }
  destruct (install_client_effect_nil_client st l cfg Hl HcN) as [Hl1 Hcl1].
  destruct (install_client_effect_globals (Some l) st) as (Hd1 & _).
  rewrite <- E in Hl1, Hcl1, Hd1.
  exists (next_loc st). split; [exact Hl1|]. split; [exact Hcl1|].
  set (cfg1 := mkConfig (Some (next_loc st)) (Concurrency cfg) (PartSize cfg) (NTry cfg)
                 (Md5Check cfg) (Scheme cfg)) in *.
  intros os' b' path' h' r Hr.
  set (st2 := run_ops os' st1) in *.
  destruct (run_ops_frame os' st1) as (A & _ & C).
  fold st2 in A, C.
  destruct (C l cfg1 Hl1) as (cfg2 & H2 & I2).
  assert (Hcfg2 : cfg2 = cfg1) by (apply I2; subst cfg1; simpl; discriminate).
  subst cfg2.
  assert (Hd2 : DefaultConfig st2 = Some l) by congruence.
  assert (Hst2 : install_client_effect (Some l) st2 = st2)
    by (apply (install_client_effect_set_client st2 l cfg1 H2); subst cfg1; simpl; discriminate).
  destruct (GetReader_PutWriter_effect b' path' h' None st2) as [F1 F2].
  rewrite Hd2, Hst2 in F1, F2.
  destruct Hr as [-> | ->]; split.
  - rewrite F1. exact H2.
  - intros t Ht. destruct (GetReader_transfer b' path' None st2 t Ht) as [u ->].
    simpl. exact Hd2.
  - rewrite F2. exact H2.
  - intros t Ht. destruct (PutWriter_transfer b' path' h' None st2 t Ht) as [u ->].
    simpl. exact Hd2.
Qed.

(** C4. In every state the package reaches from its initialization,
    GetReader(path, nil) and PutWriter(path, h, nil) are the same calls
    with the DefaultConfig pointer, and that config holds the documented
    defaults (Concurrency 10, PartSize 20 MiB, NTry 10, Md5Check true,
    Scheme https). *)
Theorem nil_config_means_DefaultConfig (os : list op) (b : ptr) (path : string) (h : Header) :
  let st := run_ops os init_state in
  exists l cfg, DefaultConfig st = Some l /\ configs st !! l = Some cfg /\
    Concurrency cfg = 10 /\ PartSize cfg = 20 * mb /\ NTry cfg = 10 /\
    Md5Check cfg = true /\ Scheme cfg = "https"%string /\
    Bucket_GetReader b path None st = Bucket_GetReader b path (Some l) st /\
    Bucket_PutWriter b path h None st = Bucket_PutWriter b path h (Some l) st.
Proof.
  intros st.
  destruct (run_ops_frame os init_state) as (Hd & _ & Hc).
  destruct (Hc 0%nat DefaultConfig_value eq_refl) as (cfg & Hl & A & B & C & D & E & _).
  exists 0%nat, cfg. subst st. rewrite GetReader_nil_config, PutWriter_nil_config, Hd.
  repeat split; assumption.
Qed.

(** C10. When the config GetReader or PutWriter settles on (c, or
    DefaultConfig when c is nil) has a nil http.Client, a new client with
    the 5 second timeout is stored into it; a non-nil client is kept as it
    is; and the transfer, if one is started, is started with that config. *)
Theorem GetReader_PutWriter_default_client (b : ptr) (path : string) (h : Header) (c : ptr)
    (l : loc) (cfg : Config) (st : State) :
  match c with None => DefaultConfig st | Some _ => c end = Some l ->
  configs st !! l = Some cfg ->
  forall r, r = Bucket_GetReader b path c st \/ r = Bucket_PutWriter b path h c st ->
  (forall t, snd r = Ret t -> transfer_config t = Some l) /\
  (Client cfg = None ->
     exists cl cfg', configs (fst r) !! l = Some cfg' /\ Client cfg' = Some cl /\
                     clients (fst r) !! cl = Some (mk_http_Client (5 * time_Second))) /\
  (forall x, Client cfg = Some x ->
     exists cfg', configs (fst r) !! l = Some cfg' /\ Client cfg' = Some x).
Proof.
  intros Hceff Hl r Hr.
  assert (E : fst r = install_client_effect (Some l) st).
  { destruct (GetReader_PutWriter_effect b path h c st) as [E1 E2].
    rewrite Hceff in E1, E2. destruct Hr as [-> | ->]; assumption. }
  split.
  { intros t Ht. destruct Hr as [-> | ->].
    - destruct (GetReader_transfer b path c st t Ht) as [u ->]. simpl. exact Hceff.
    - destruct (PutWriter_transfer b path h c st t Ht) as [u ->]. simpl. exact Hceff. }
  rewrite E. unfold install_client_effect. rewrite Hl.
  destruct (Client cfg) as [x|] eqn:Hc; split.
  - discriminate.
  - intros x' [= <-]. exists cfg. auto.
  - intros _. exists (next_loc st). eexists. simpl.
    rewrite !lookup_insert_eq. repeat split.
  - intros x' Hx'. discriminate.
Qed.

(** C3. The config DefaultConfig points to after package initialization
    has Concurrency 10, PartSize 20 MiB, NTry 10, Md5Check true and Scheme
    "https". *)
Theorem DefaultConfig_documented_values :
  exists l cfg, DefaultConfig init_state = Some l /\ configs init_state !! l = Some cfg /\
    Concurrency cfg = 10 /\ PartSize cfg = 20 * 2 ^ 20 /\ NTry cfg = 10 /\
    Md5Check cfg = true /\ Scheme cfg = "https"%string.
Proof. exists 0%nat, DefaultConfig_value. repeat split. Qed.

(** C6. s3.Bucket(n) returns a new Bucket whose Name is n and whose S3
    field is the very pointer s3, so that it reaches the same Domain and
    Keys; no S3 value and no config is changed. *)
Theorem S3_Bucket_back_reference (s : ptr) (n : string) (st : State) :
  let '(st', r) := S3_Bucket s n st in
  exists l bk, r = Ret (Some l) /\ buckets st' !! l = Some bk /\
    Name bk = n /\ Bucket_S3 bk = s /\
    s3s st' = s3s st /\ configs st' = configs st /\
    (forall x, load_s3 s st = (st, Ret x) -> load_s3 (Bucket_S3 bk) st' = (st', Ret x)).
Proof.
  unfold S3_Bucket, alloc_bucket, fresh, mbind. simpl.
  exists (next_loc st), (mkBucket s n). rewrite lookup_insert_eq.
  repeat split.
  intros x. unfold load_s3. simpl. destruct s as [sl|]; [|discriminate].
  destruct (s3s st !! sl); congruence.
Qed.

Lemma run_ops_DefaultDomain (os : list op) :
  DefaultDomain (run_ops os init_state) = "s3.amazonaws.com"%string.
Proof. destruct (run_ops_frame os init_state) as (_ & E & _). exact E. Qed.

(** C8. In every state the package reaches from its initialization,
    New("", k) returns an S3 with Domain "s3.amazonaws.com", New(d, k) for
    a non-empty d one with Domain d, and in both cases Keys k. *)
Theorem New_Domain_Keys (os : list op) (d : string) (k : Keys) :
  let st := run_ops os init_state in
  exists l, snd (New d k st) = Ret (Some l) /\
    s3s (fst (New d k st)) !! l =
      Some (mkS3 (if String.eqb d "" then "s3.amazonaws.com"%string else d) k).
Proof.
  intros st. exists (next_loc st).
  unfold New, alloc_s3, fresh, get_DefaultDomain, mbind, mret.
  destruct (String.eqb d "") eqn:Hd; simpl; (split; [reflexivity|]);
    rewrite lookup_insert_eq; [|reflexivity].
  subst st. rewrite run_ops_DefaultDomain. reflexivity.
Qed.

Lemma GetReader_PutWriter_after_guard (b : ptr) (path : string) (h : Header) (l : loc)
    (cfg : Config) (st : State) :
  configs st !! l = Some cfg ->
  Bucket_GetReader b path (Some l) st =
    (u <- Bucket_Url b path (Some l) ;; newGetter u (Some l) b) (install_client_effect (Some l) st) /\
  Bucket_PutWriter b path h (Some l) st =
    (u <- Bucket_Url b path (Some l) ;; newPutter u h (Some l) b) (install_client_effect (Some l) st).
Proof.
  intros Hl.
  unfold Bucket_GetReader, Bucket_PutWriter, install_client_effect, ClientWithTimeout,
    alloc_client, fresh, store_config_Client, load_config, newGetter, newPutter, mbind, mret.
  cbn -[Bucket_Url]. rewrite Hl.
  destruct (Client cfg); [split; reflexivity|].
  unfold set_clients, set_next_loc. simpl. rewrite Hl. split; reflexivity.
Qed.

Lemma Bucket_Url_eval (b : ptr) (path : string) (c : ptr) (st : State) (cfg : Config)
    (bk : Bucket) (x : S3) :
  load_config c st = (st, Ret cfg) -> load_bucket b st = (st, Ret bk) ->
  load_s3 (Bucket_S3 bk) st = (st, Ret x) ->
  Bucket_Url b path c st =
    match url_Parse (Sprintf_url (Scheme cfg) (Name bk) (Domain x) path) with
    | inl e => (st, Panic (url_panic e))
    | inr u => (st, Ret u)
    end.
Proof.
  intros H1 H2 H3. unfold Bucket_Url, mbind at 1. rewrite H1.
  unfold mbind at 1. rewrite H2. unfold mbind at 1. rewrite H3.
  destruct (url_Parse _); reflexivity.
Qed.

(** net/url rejects a URL that starts with ':' (missing protocol scheme),
    whatever follows. *)
Lemma url_Parse_leading_colon (r : string) :
  exists e, url_Parse (String ":"%char r) = inl e.
Proof.
  unfold url_Parse. simpl. destruct (cut_hash r) as [[before after] found].
  unfold parse. destruct (stringContainsCTLByte _); [eexists; reflexivity|].
  simpl. eexists; reflexivity.
Qed.

(** C9. Bucket.Url has no error result: when the composed string
    "{scheme}://{name}.{domain}/{path}" parses it returns the parsed URL,
    when it does not it panics; with Scheme "" the string has a missing
    protocol scheme, Url panics, and so do GetReader and PutWriter called
    with that config. *)
Theorem Bucket_Url_returns_or_panics (b : ptr) (path : string) (c : ptr) (st : State)
    (cfg : Config) (bk : Bucket) (x : S3) :
  load_config c st = (st, Ret cfg) -> load_bucket b st = (st, Ret bk) ->
  load_s3 (Bucket_S3 bk) st = (st, Ret x) ->
  let raw := Sprintf_url (Scheme cfg) (Name bk) (Domain x) path in
  (forall u, url_Parse raw = inr u -> Bucket_Url b path c st = (st, Ret u)) /\
  (forall e, url_Parse raw = inl e -> Bucket_Url b path c st = (st, Panic (url_panic e))) /\
  (Scheme cfg = ""%string ->
     (exists e, Bucket_Url b path c st = (st, Panic (url_panic e))) /\
     (forall h : Header, exists st1 st2 e1 e2,
        Bucket_GetReader b path c st = (st1, Panic (url_panic e1)) /\
        Bucket_PutWriter b path h c st = (st2, Panic (url_panic e2)))).
Proof.
  intros H1 H2 H3 raw.
  pose proof (Bucket_Url_eval b path c st cfg bk x H1 H2 H3) as HU.
  split; [intros u Hu; rewrite HU; fold raw; rewrite Hu; reflexivity|].
  split; [intros e He; rewrite HU; fold raw; rewrite He; reflexivity|].
  intros Hs.
  assert (Hraw : exists e, url_Parse raw = inl e).
  { subst raw. rewrite Hs. apply url_Parse_leading_colon. }
  destruct Hraw as [e He].
  split; [exists e; rewrite HU; fold raw; rewrite He; reflexivity|].
  intros h.
  destruct c as [l|]; [|discriminate].
  unfold load_config in H1. destruct (configs st !! l) as [cfg0|] eqn:Hl; [|discriminate].
  injection H1 as ->.
  destruct (GetReader_PutWriter_after_guard b path h l cfg st Hl) as [EG EP].
  set (st1 := install_client_effect (Some l) st) in *.
  assert (Hcfg1 : exists cfg1, load_config (Some l) st1 = (st1, Ret cfg1) /\
                               Scheme cfg1 = Scheme cfg).
  { destruct (install_client_effect_configs (Some l) st l cfg Hl) as (cfg1 & Hl1 & I).
    exists cfg1. unfold load_config. fold st1 in Hl1. rewrite Hl1.
    destruct I as (_ & _ & _ & _ & I & _). auto. }
  destruct Hcfg1 as (cfg1 & Hc1 & Hsch).
  destruct (install_client_effect_globals (Some l) st) as (_ & _ & Hs3 & Hbk).
  fold st1 in Hs3, Hbk.
  assert (Hb1 : load_bucket b st1 = (st1, Ret bk)).
  { unfold load_bucket in *. rewrite Hbk. destruct b as [bl|]; [|discriminate].
    destruct (buckets st !! bl); congruence. }
  assert (Hx1 : load_s3 (Bucket_S3 bk) st1 = (st1, Ret x)).
  { unfold load_s3 in *. rewrite Hs3. destruct (Bucket_S3 bk) as [sl|]; [|discriminate].
    destruct (s3s st !! sl); congruence. }
  pose proof (Bucket_Url_eval b path (Some l) st1 cfg1 bk x Hc1 Hb1 Hx1) as HU1.
  rewrite Hsch in HU1. fold raw in HU1. rewrite He in HU1.
  exists st1, st1, e, e. rewrite EG, EP. unfold mbind. rewrite HU1. split; reflexivity.
Qed.

Lemma header_Add_keeps (r : Header) (k k' v v' : string) :
  In v (header_Values r k) -> In v (header_Values (header_Add r k' v') k).
Proof.
  induction r as [|[k0 vs] r IH]; simpl; [contradiction|].
  destruct (String.eqb k k0) eqn:E1, (String.eqb k' k0) eqn:E2; simpl; rewrite ?E1; auto.
  intros Hv. apply in_or_app. auto.
Qed.

Lemma header_Add_adds (r : Header) (k v : string) :
  In v (header_Values (header_Add r k v) k).
Proof.
  induction r as [|[k0 vs] r IH]; simpl.
  - rewrite String.eqb_refl. simpl. auto.
  - destruct (String.eqb k k0) eqn:E; simpl; rewrite ?E; auto.
    apply in_or_app. simpl. auto.
Qed.

Lemma add_values_spec (r : Header) (k0 : string) (vs : list string) (k v : string) :
  let r' := fold_left (fun r v => header_Add r k0 v) vs r in
  (In v (header_Values r k) -> In v (header_Values r' k)) /\
  (k = k0 -> In v vs -> In v (header_Values r' k)).
Proof.
  revert r. induction vs as [|v0 vs IH]; intros r; simpl.
  - split; [auto | contradiction].
  - destruct (IH (header_Add r k0 v0)) as [IH1 IH2]. split.
    + intros Hv. apply IH1, header_Add_keeps, Hv.
    + intros -> [<- | Hv]; [|auto]. apply IH1, header_Add_adds.
Qed.

Lemma add_headers_spec (r h : Header) (k v : string) :
  (In v (header_Values r k) -> In v (header_Values (add_headers r h) k)) /\
  (forall vs, In (k, vs) h -> In v vs -> In v (header_Values (add_headers r h) k)).
Proof.
  unfold add_headers. revert r. induction h as [|[k0 vs0] h IH]; intros r; simpl.
  - split; [auto | contradiction].
  - destruct (IH (fold_left (fun r v => header_Add r k0 v) vs0 r)) as [IH1 IH2].
    destruct (add_values_spec r k0 vs0 k v) as [A1 A2]. split.
    + intros Hv. apply IH1, A1, Hv.
    + intros vs [[= -> ->] | Hin] Hv; [|eauto]. apply IH1, A2; auto.
Qed.

(** C7. The transfer PutWriter(path, h, c) starts is given the caller's
    header set h unchanged, and every value of every header of h is
    among the values of that header in the request that creates the
    object. *)
Theorem PutWriter_passes_headers (b : ptr) (path : string) (h : Header) (c : ptr) (st : State)
    (t : transfer) :
  snd (Bucket_PutWriter b path h c st) = Ret t ->
  (exists u c', t = Putting u h c' b) /\
  (forall k vs v, In (k, vs) h -> In v vs ->
     In v (header_Values (initiate_request_header t) k)).
Proof.
  intros Ht. destruct (PutWriter_transfer b path h c st t Ht) as [u ->].
  split; [eauto|]. intros k vs v Hin Hv. simpl.
  destruct (add_headers_spec [] h k v) as [_ A]. eauto.
Qed.

End Package.

(* ------------------------------------------------------------------ *)
(** ** The reorder buffer delivers in index order *)

Lemma reorder_flush_inv (parts : nat -> list Byte.byte) (A : list nat) (fuel : nat)
    (g : Reorder.getter) :
  Reorder.ready_inv parts A g -> (size (Reorder.buffer g) <= fuel)%nat ->
  Reorder.ready_inv parts A (Reorder.flush fuel g) /\
  Reorder.next_index (Reorder.flush fuel g) ∉ A.
Proof.
  revert g. induction fuel as [|fuel IH]; intros g Hinv Hsz.
  - assert (He : Reorder.buffer g = ∅) by (apply map_size_empty_inv; lia).
    simpl. split; [exact Hinv|]. destruct Hinv as (_ & H2 & _).
    intros Hin. specialize (H2 (Reorder.next_index g)). rewrite He, lookup_empty in H2.
    destruct (decide _) as [|Hn]; [discriminate | apply Hn; split; [exact Hin | lia]].
  - simpl. destruct Hinv as (H1 & H2 & H3).
    destruct (Reorder.buffer g !! Reorder.next_index g) as [p|] eqn:Hb.
    + assert (Hin : Reorder.next_index g ∈ A /\ p = parts (Reorder.next_index g)).
      { rewrite H2 in Hb. destruct (decide _) as [[Ha _]|]; [|discriminate].
        injection Hb as <-. auto. }
      destruct Hin as [Hin ->].
      apply IH.
      * split; [|split]; cbn [Reorder.next_index Reorder.buffer Reorder.delivered].
        -- intros i Hi. destruct (decide (i = Reorder.next_index g)) as [->|Hne]; [exact Hin|].
           apply H1. lia.
        -- intros i. destruct (decide (i = Reorder.next_index g)) as [->|Hne].
           ++ rewrite lookup_delete_eq. destruct (decide _); [lia | reflexivity].
           ++ rewrite lookup_delete_ne by congruence. rewrite H2.
              destruct (decide (i ∈ A /\ Reorder.next_index g <= i)%nat) as [[Ha Hle]|Hn1],
                       (decide (i ∈ A /\ S (Reorder.next_index g) <= i)%nat) as [[Ha' Hle']|Hn2];
                try reflexivity; exfalso.
              ** apply Hn2. split; [exact Ha | lia].
              ** apply Hn1. split; [exact Ha' | lia].
        -- rewrite H3, seq_S, map_app, concat_app. simpl. rewrite app_nil_r. reflexivity.
      * simpl. rewrite map_size_delete_Some by (rewrite Hb; eauto). lia.
    + split; [split; [|split]; assumption|].
      intros Hin. specialize (H2 (Reorder.next_index g)). rewrite Hb in H2.
      destruct (decide _) as [|Hn]; [discriminate | apply Hn; split; [exact Hin | lia]].
Qed.

Lemma reorder_arrive_inv (parts : nat -> list Byte.byte) (A : list nat) (i : nat)
    (g : Reorder.getter) :
  Reorder.ready_inv parts A g -> i ∉ A ->
  Reorder.ready_inv parts (A ++ [i]) (Reorder.arrive g i (parts i)) /\
  Reorder.next_index (Reorder.arrive g i (parts i)) ∉ A ++ [i].
Proof.
  intros (H1 & H2 & H3) Hi. unfold Reorder.arrive.
  assert (Hge : (Reorder.next_index g <= i)%nat).
  { destruct (decide (i < Reorder.next_index g)%nat) as [Hlt|]; [|lia].
    exfalso. apply Hi, H1, Hlt. }
  apply reorder_flush_inv; [|reflexivity].
  split; [|split]; simpl.
  - intros j Hj. apply elem_of_app. left. apply H1, Hj.
  - intros j. destruct (decide (j = i)) as [->|Hne].
    + rewrite lookup_insert_eq. destruct (decide _) as [|Hn]; [reflexivity|].
      exfalso. apply Hn. split; [apply elem_of_app; right; left | lia].
    + rewrite lookup_insert_ne by congruence. rewrite H2.
      destruct (decide (j ∈ A /\ Reorder.next_index g <= j)%nat) as [[Ha Hle]|Hn1],
               (decide (j ∈ A ++ [i] /\ Reorder.next_index g <= j)%nat) as [[Ha' Hle']|Hn2];
        try reflexivity; exfalso.
      * apply Hn2. split; [apply elem_of_app; left; exact Ha | exact Hle].
      * apply Hn1. split; [|exact Hle'].
        apply elem_of_app in Ha' as [Ha'|Ha']; [exact Ha'|].
        apply list_elem_of_singleton in Ha'. congruence.
  - exact H3.
Qed.

Lemma reorder_fold_inv (parts : nat -> list Byte.byte) (arr A : list nat)
    (g : Reorder.getter) :
  Reorder.ready_inv parts A g -> Reorder.next_index g ∉ A -> NoDup (A ++ arr) ->
  let g' := fold_left (fun g i => Reorder.arrive g i (parts i)) arr g in
  Reorder.ready_inv parts (A ++ arr) g' /\ Reorder.next_index g' ∉ A ++ arr.
Proof.
  revert A g. induction arr as [|i arr IH]; intros A g Hinv Hn Hnd; simpl.
  - rewrite app_nil_r. auto.
  - assert (Hi : i ∉ A).
    { apply NoDup_app in Hnd as (_ & Hdis & _). intros Hin.
      apply (Hdis i Hin). left. }
    destruct (reorder_arrive_inv parts A i g Hinv Hi) as [Hinv' Hn'].
    replace (A ++ i :: arr) with ((A ++ [i]) ++ arr) in * by (rewrite <- app_assoc; reflexivity).
    apply IH; assumption.
Qed.


(** C5. Whatever order the responses for the parts 0 .. k-1 arrive in,
    the bytes the download delivers are the parts concatenated in index
    order, and the buffer ends empty. *)
Theorem download_delivers_in_index_order (parts : nat -> list Byte.byte) (k : nat)
    (arrival : list nat) :
  arrival ≡ₚ seq 0 k ->
  Reorder.delivered (Reorder.download parts arrival) = concat (map parts (seq 0 k)) /\
  Reorder.next_index (Reorder.download parts arrival) = k /\
  Reorder.buffer (Reorder.download parts arrival) = ∅.
Proof.
  intros Hperm.
  assert (Hmem : forall i, i ∈ arrival <-> (i < k)%nat).
  { intros i. rewrite Hperm, elem_of_seq. lia. }
  assert (Hnd : NoDup arrival) by (rewrite Hperm; apply NoDup_seq).
  assert (H0 : Reorder.ready_inv parts [] Reorder.start).
  { unfold Reorder.start.
    split; [|split]; cbn [Reorder.next_index Reorder.buffer Reorder.delivered].
    - intros i Hi. lia.
    - intros i. rewrite lookup_empty. case_decide as Hd; [|reflexivity].
      destruct Hd as [Hin _]. apply elem_of_nil in Hin. contradiction.
    - reflexivity. }
  destruct (reorder_fold_inv parts arrival [] Reorder.start H0 (not_elem_of_nil _) Hnd)
    as ((H1 & H2 & H3) & Hn).
  simpl in H1, H2, Hn. fold (Reorder.download parts arrival) in *.
  set (g := Reorder.download parts arrival) in *.
  assert (Hk : Reorder.next_index g = k).
  { destruct (decide (Reorder.next_index g < k)%nat) as [Hlt|Hge].
    - exfalso. apply Hn, Hmem, Hlt.
    - destruct (decide (k < Reorder.next_index g)%nat) as [Hlt|]; [|lia].
      pose proof (H1 k Hlt) as Hin. apply Hmem in Hin. lia. }
  split; [rewrite H3, Hk; reflexivity|]. split; [exact Hk|].
  apply map_empty. intros i. rewrite H2. case_decide as Hd; [|reflexivity].
  destruct Hd as [Hin Hle]. apply Hmem in Hin. lia.
Qed.

(* ------------------------------------------------------------------ *)
(** ** Concrete runs *)

Abbreviation pr := example_parse_rest.
Abbreviation sf := example_setFragment.

(** C1 fails: GetReader stores a client into the caller's config 7, whose
    http.Client field was nil. *)
Lemma GetReader_mutates_caller_config :
  configs (fst (Bucket_GetReader pr sf (Some 2%nat) "key" (Some 7%nat) example_state)) !! 7%nat
  <> configs example_state !! 7%nat.
Proof. vm_compute. discriminate. Defined.

Lemma GetReader_PutWriter_mutate_only_nil_Client_witness :
  configs example_state !! 7%nat = Some example_config /\
  let st' := fst (Bucket_GetReader pr sf (Some 2%nat) "key" (Some 7%nat) example_state) in
  (forall l', l' <> 7%nat -> configs st' !! l' = configs example_state !! l') /\
  (forall x, Client example_config = Some x -> configs st' !! 7%nat = Some example_config) /\
  (Client example_config = None ->
     exists cl, configs st' !! 7%nat =
                  Some (mkConfig (Some cl) (Concurrency example_config) (PartSize example_config)
                          (NTry example_config) (Md5Check example_config)
                          (Scheme example_config)) /\
                clients st' !! cl = Some (mk_http_Client clientTimeout)).
Proof.
  split; [reflexivity|].
  apply (GetReader_PutWriter_mutate_only_nil_Client pr sf (Some 2%nat) "key" []
           7%nat example_config example_state); [reflexivity | left; reflexivity].
Defined.

(** C2 fails: after one GetReader with a nil config, the config
    DefaultConfig points to is no longer its initial value. *)
Lemma DefaultConfig_changed_by_nil_GetReader :
  configs (run_ops pr sf [OpNew "" (mkKeys "AKID" "SECRET"); OpBucket (Some 1%nat) "bucket";
                          OpGetReader (Some 2%nat) "key" None] init_state) !! 0%nat
  <> configs init_state !! 0%nat.
Proof. vm_compute. discriminate. Defined.

Lemma DefaultConfig_shared_fields_preserved_witness :
  DefaultConfig example_state = Some 0%nat /\
  configs example_state !! 0%nat = Some DefaultConfig_value /\
  let cfg := DefaultConfig_value in
  let st' := run_ops pr sf [OpGetReader (Some 2%nat) "key" None;
                            OpPutWriter (Some 2%nat) "key" example_header None] example_state in
  (DefaultConfig st' = Some 0%nat /\
   exists cfg', configs st' !! 0%nat = Some cfg' /\
     Concurrency cfg' = Concurrency cfg /\ PartSize cfg' = PartSize cfg /\
     NTry cfg' = NTry cfg /\ Md5Check cfg' = Md5Check cfg /\ Scheme cfg' = Scheme cfg /\
     (Client cfg <> None -> cfg' = cfg)) /\
  (Client cfg = None ->
   forall (b : ptr) (path : string) (h : Header) (c : ptr) (st1 : State),
     match c with None => DefaultConfig example_state | Some _ => c end = Some 0%nat ->
     st1 = fst (Bucket_GetReader pr sf b path c example_state) \/
     st1 = fst (Bucket_PutWriter pr sf b path h c example_state) ->
     exists cl : loc,
       configs st1 !! 0%nat = Some (mkConfig (Some cl) (Concurrency cfg) (PartSize cfg)
                                      (NTry cfg) (Md5Check cfg) (Scheme cfg)) /\
       clients st1 !! cl = Some (mk_http_Client clientTimeout) /\
       forall (os' : list op) (b' : ptr) (path' : string) (h' : Header)
              (r : State * go_result transfer),
         r = Bucket_GetReader pr sf b' path' None (run_ops pr sf os' st1) \/
         r = Bucket_PutWriter pr sf b' path' h' None (run_ops pr sf os' st1) ->
         configs (fst r) !! 0%nat = Some (mkConfig (Some cl) (Concurrency cfg) (PartSize cfg)
                                            (NTry cfg) (Md5Check cfg) (Scheme cfg)) /\
         (forall t, snd r = Ret t -> transfer_config t = Some 0%nat)).
Proof.
  split; [reflexivity|]. split; [reflexivity|].
  apply (DefaultConfig_shared_fields_preserved pr sf _ example_state 0%nat DefaultConfig_value);
    reflexivity.
Defined.

Lemma download_delivers_in_index_order_witness :
  [2; 0; 1]%nat ≡ₚ seq 0 3 /\
  Reorder.delivered (Reorder.download (fun i => [Byte.x00; if Nat.eqb i 0 then Byte.x30 else Byte.x31]) [2; 0; 1]%nat) =
    concat (map (fun i => [Byte.x00; if Nat.eqb i 0 then Byte.x30 else Byte.x31]) (seq 0 3)) /\
  Reorder.next_index (Reorder.download (fun i => [Byte.x00; if Nat.eqb i 0 then Byte.x30 else Byte.x31]) [2; 0; 1]%nat) = 3%nat /\
  Reorder.buffer (Reorder.download (fun i => [Byte.x00; if Nat.eqb i 0 then Byte.x30 else Byte.x31]) [2; 0; 1]%nat) = ∅.
Proof.
  assert (Hp : [2; 0; 1]%nat ≡ₚ seq 0 3).
  { simpl. eapply perm_trans; [apply perm_swap | apply perm_skip, perm_swap]. }
  split; [exact Hp|].
  exact (download_delivers_in_index_order (fun i => [Byte.x00; if Nat.eqb i 0 then Byte.x30 else Byte.x31]) 3 _ Hp).
Defined.

Lemma PutWriter_passes_headers_witness :
  let r := Bucket_PutWriter pr sf (Some 2%nat) "key" example_header None example_state in
  let t := Putting (mkURL "https" "" "" "//bucket.s3.amazonaws.com/key" "" "") example_header
             (Some 0%nat) (Some 2%nat) in
  snd r = Ret t /\
  (exists u c', t = Putting u example_header c' (Some 2%nat)) /\
  (forall k vs v, In (k, vs) example_header -> In v vs ->
     In v (header_Values (initiate_request_header t) k)).
Proof.
  intros r t. assert (Hr : snd r = Ret t) by (vm_compute; reflexivity).
  split; [exact Hr|].
  exact (PutWriter_passes_headers pr sf (Some 2%nat) "key" example_header None example_state t Hr).
Defined.

Lemma Bucket_Url_returns_or_panics_witness :
  let cfg := example_config_no_scheme in
  let bk := mkBucket (Some 1%nat) "bucket" in
  let x := mkS3 "s3.amazonaws.com" (mkKeys "AKID" "SECRET") in
  load_config (Some 8%nat) example_state = (example_state, Ret cfg) /\
  load_bucket (Some 2%nat) example_state = (example_state, Ret bk) /\
  load_s3 (Bucket_S3 bk) example_state = (example_state, Ret x) /\
  let raw := Sprintf_url (Scheme cfg) (Name bk) (Domain x) "key" in
  (forall u, url_Parse pr sf raw = inr u ->
     Bucket_Url pr sf (Some 2%nat) "key" (Some 8%nat) example_state = (example_state, Ret u)) /\
  (forall e, url_Parse pr sf raw = inl e ->
     Bucket_Url pr sf (Some 2%nat) "key" (Some 8%nat) example_state =
       (example_state, Panic (url_panic e))) /\
  (Scheme cfg = ""%string ->
     (exists e, Bucket_Url pr sf (Some 2%nat) "key" (Some 8%nat) example_state =
                  (example_state, Panic (url_panic e))) /\
     (forall h : Header, exists st1 st2 e1 e2,
        Bucket_GetReader pr sf (Some 2%nat) "key" (Some 8%nat) example_state =
          (st1, Panic (url_panic e1)) /\
        Bucket_PutWriter pr sf (Some 2%nat) "key" h (Some 8%nat) example_state =
          (st2, Panic (url_panic e2)))).
Proof.
  intros cfg bk x.
  assert (H1 : load_config (Some 8%nat) example_state = (example_state, Ret cfg))
    by (vm_compute; reflexivity).
  assert (H2 : load_bucket (Some 2%nat) example_state = (example_state, Ret bk))
    by (vm_compute; reflexivity).
  assert (H3 : load_s3 (Bucket_S3 bk) example_state = (example_state, Ret x))
    by (vm_compute; reflexivity).
  split; [exact H1|]. split; [exact H2|]. split; [exact H3|].
  exact (Bucket_Url_returns_or_panics pr sf (Some 2%nat) "key" (Some 8%nat) example_state
           cfg bk x H1 H2 H3).
Defined.

Lemma GetReader_PutWriter_default_client_witness :
  DefaultConfig example_state = Some 0%nat /\
  configs example_state !! 0%nat = Some DefaultConfig_value /\
  let r := Bucket_GetReader pr sf (Some 2%nat) "key" None example_state in
  (forall t, snd r = Ret t -> transfer_config t = Some 0%nat) /\
  (Client DefaultConfig_value = None ->
     exists cl cfg', configs (fst r) !! 0%nat = Some cfg' /\ Client cfg' = Some cl /\
                     clients (fst r) !! cl = Some (mk_http_Client (5 * time_Second))) /\
  (forall x, Client DefaultConfig_value = Some x ->
     exists cfg', configs (fst r) !! 0%nat = Some cfg' /\ Client cfg' = Some x).
Proof.
  split; [reflexivity|]. split; [reflexivity|].
  apply (GetReader_PutWriter_default_client pr sf (Some 2%nat) "key" [] None 0%nat
           DefaultConfig_value example_state); [reflexivity | reflexivity | left; reflexivity].
Defined.

(* ------------------------------------------------------------------ *)
(** ** Further properties of the facade *)

Section Facade.

Variable parse_rest : string -> string -> string + URL.
Variable setFragment : URL -> string -> string + URL.

Local Abbreviation GetReader := (Bucket_GetReader parse_rest setFragment).
Local Abbreviation PutWriter := (Bucket_PutWriter parse_rest setFragment).
Local Abbreviation Url := (Bucket_Url parse_rest setFragment).

Lemma load_bucket_same_heap (b : ptr) (st st' : State) :
  buckets st' = buckets st -> load_bucket b st' = (st', snd (load_bucket b st)).
Proof.
  intros E. unfold load_bucket. rewrite E.
  destruct b as [bl|]; [destruct (buckets st !! bl)|]; reflexivity.
Qed.

Lemma load_s3_same_heap (s : ptr) (st st' : State) :
  s3s st' = s3s st -> load_s3 s st' = (st', snd (load_s3 s st)).
Proof.
  intros E. unfold load_s3. rewrite E.
  destruct s as [sl|]; [destruct (s3s st !! sl)|]; reflexivity.
Qed.

Lemma load_config_after_guard (l : loc) (cfg : Config) (st : State) :
  configs st !! l = Some cfg ->
  exists cfg1, load_config (Some l) (install_client_effect (Some l) st) =
                 (install_client_effect (Some l) st, Ret cfg1) /\
               Scheme cfg1 = Scheme cfg /\ Client cfg1 <> None.
Proof.
  intros Hl. unfold install_client_effect, load_config. rewrite Hl.
  destruct (Client cfg) as [x|] eqn:Hc.
  - rewrite Hl. exists cfg. rewrite Hc. repeat split; discriminate.
  - simpl. rewrite lookup_insert_eq. eexists. repeat split; simpl; discriminate.
Qed.

Lemma load_s3_state (s : ptr) (st : State) : fst (load_s3 s st) = st.
Proof. unfold load_s3. destruct s as [sl|]; [destruct (s3s st !! sl)|]; reflexivity. Qed.

Lemma load_bucket_state (b : ptr) (st : State) : fst (load_bucket b st) = st.
Proof. unfold load_bucket. destruct b as [bl|]; [destruct (buckets st !! bl)|]; reflexivity. Qed.

Lemma load_config_state (c : ptr) (st : State) : fst (load_config c st) = st.
Proof. unfold load_config. destruct c as [l|]; [destruct (configs st !! l)|]; reflexivity. Qed.

Lemma calls_on_settled_config (b : ptr) (path : string) (h : Header) (c : ptr) (st : State) :
  let ceff := match c with None => DefaultConfig st | Some _ => c end in
  GetReader b path c st = GetReader b path ceff st /\
  PutWriter b path h c st = PutWriter b path h ceff st.
Proof.
  intros ceff. subst ceff. destruct c; [split; reflexivity|].
  rewrite GetReader_nil_config, PutWriter_nil_config. auto.
Qed.

Lemma Url_nil_panic (b : ptr) (path : string) (c : ptr) (st : State) :
  snd (load_config c st) = Panic nil_dereference \/
  snd (load_bucket b st) = Panic nil_dereference \/
  (exists bk, snd (load_bucket b st) = Ret bk /\
              snd (load_s3 (Bucket_S3 bk) st) = Panic nil_dereference) ->
  Url b path c st = (st, Panic nil_dereference).
Proof.
  intros H. unfold Bucket_Url, mbind.
  pose proof (load_config_state c st) as S1.
  destruct (load_config c st) as [s1 [cfg|p1]] eqn:E1; simpl in S1; subst s1.
  2:{ destruct H as [H|[H|(bk & _ & H)]]; simpl in *; [congruence| |].
      all: unfold load_config in E1; destruct c as [l|]; [destruct (configs st !! l)|];
        congruence. }
  pose proof (load_bucket_state b st) as S2.
  destruct (load_bucket b st) as [s2 [bk|p2]] eqn:E2; simpl in S2; subst s2.
  2:{ unfold load_bucket in E2; destruct b as [bl|]; [destruct (buckets st !! bl)|];
        congruence. }
  pose proof (load_s3_state (Bucket_S3 bk) st) as S3.
  destruct (load_s3 (Bucket_S3 bk) st) as [s3 [x|p3]] eqn:E3; simpl in S3; subst s3.
  2:{ unfold load_s3 in E3; destruct (Bucket_S3 bk) as [sl|]; [destruct (s3s st !! sl)|];
        congruence. }
  exfalso. destruct H as [H|[H|(bk' & H1 & H)]]; simpl in *; try congruence.
  injection H1 as <-. rewrite E3 in H. discriminate.
Qed.

Lemma unusable_bucket_panics (b : ptr) (path : string) (h : Header) (c : ptr) (st : State)
    (l : loc) (cfg : Config) :
  match c with None => DefaultConfig st | Some _ => c end = Some l ->
  configs st !! l = Some cfg ->
  snd (load_bucket b st) = Panic nil_dereference \/
  (exists bk, snd (load_bucket b st) = Ret bk /\
              snd (load_s3 (Bucket_S3 bk) st) = Panic nil_dereference) ->
  GetReader b path c st = (install_client_effect (Some l) st, Panic nil_dereference) /\
  PutWriter b path h c st = (install_client_effect (Some l) st, Panic nil_dereference).
Proof.
  intros Hc Hl Hb.
  destruct (calls_on_settled_config b path h c st) as [-> ->]. rewrite Hc.
  destruct (GetReader_PutWriter_after_guard parse_rest setFragment b path h l cfg st Hl)
    as [-> ->].
  set (st1 := install_client_effect (Some l) st).
  destruct (install_client_effect_globals (Some l) st) as (_ & _ & Hs3 & Hbk).
  fold st1 in Hs3, Hbk.
  assert (HU : Url b path (Some l) st1 = (st1, Panic nil_dereference)).
  { apply Url_nil_panic. right.
    rewrite (load_bucket_same_heap b st st1 Hbk). simpl.
    destruct Hb as [Hb|(bk & Hb1 & Hb2)]; [left; exact Hb|right].
    exists bk. split; [exact Hb1|].
    rewrite (load_s3_same_heap (Bucket_S3 bk) st st1 Hs3). exact Hb2. }
  unfold mbind. rewrite HU. split; reflexivity.
Qed.

(** X2. Bucket.Url changes no state, and it panics with a nil pointer
    dereference when the config pointer or the bucket pointer does not
    point to a value, or the bucket's S3 pointer does not. *)
Theorem Url_pure_and_nil_panics (b : ptr) (path : string) (c : ptr) (st : State) :
  fst (Url b path c st) = st /\
  (snd (load_config c st) = Panic nil_dereference \/
   snd (load_bucket b st) = Panic nil_dereference \/
   (exists bk, snd (load_bucket b st) = Ret bk /\
               snd (load_s3 (Bucket_S3 bk) st) = Panic nil_dereference) ->
   Url b path c st = (st, Panic nil_dereference)).
Proof. split; [apply Bucket_Url_state | apply Url_nil_panic]. Qed.

(** X3. GetReader and PutWriter on a nil bucket pointer, or on a bucket
    whose S3 pointer is nil, panic with a nil dereference, but only after
    the nil-client guard has stored a default client into the config. *)
Theorem GetReader_PutWriter_unusable_bucket (b : ptr) (path : string) (h : Header) (c : ptr)
    (st : State) (l : loc) (cfg : Config) :
  match c with None => DefaultConfig st | Some _ => c end = Some l ->
  configs st !! l = Some cfg ->
  snd (load_bucket b st) = Panic nil_dereference \/
  (exists bk, snd (load_bucket b st) = Ret bk /\
              snd (load_s3 (Bucket_S3 bk) st) = Panic nil_dereference) ->
  GetReader b path c st = (install_client_effect (Some l) st, Panic nil_dereference) /\
  PutWriter b path h c st = (install_client_effect (Some l) st, Panic nil_dereference).
Proof. apply unusable_bucket_panics. Qed.

(** X5. With a nil config while DefaultConfig itself is nil, GetReader
    and PutWriter panic with a nil dereference and change nothing. *)
Theorem nil_config_with_nil_DefaultConfig (b : ptr) (path : string) (h : Header) (st : State) :
  DefaultConfig st = None ->
  GetReader b path None st = (st, Panic nil_dereference) /\
  PutWriter b path h None st = (st, Panic nil_dereference).
Proof.
  intros Hd. rewrite GetReader_nil_config, PutWriter_nil_config, Hd.
  unfold Bucket_GetReader, Bucket_PutWriter, load_config, get_DefaultConfig, mbind. simpl.
  rewrite Hd. split; reflexivity.
Qed.

(** X7. After a GetReader or PutWriter call, the config it settled on has
    a non-nil http.Client, and its other fields are those it had before.
    No later sequence of package calls changes that config again. *)
Theorem Client_fixed_after_first_use (b : ptr) (path : string) (h : Header) (c : ptr)
    (st : State) (l : loc) (cfg : Config) (os : list op) :
  match c with None => DefaultConfig st | Some _ => c end = Some l ->
  configs st !! l = Some cfg ->
  forall st1, st1 = fst (GetReader b path c st) \/ st1 = fst (PutWriter b path h c st) ->
  exists cfg1, configs st1 !! l = Some cfg1 /\ Client cfg1 <> None /\
    client_installed cfg cfg1 /\
    configs (run_ops parse_rest setFragment os st1) !! l = Some cfg1.
Proof.
  intros Hc Hl st1 Hst1.
  assert (E : st1 = install_client_effect (Some l) st).
  { destruct (GetReader_PutWriter_effect parse_rest setFragment b path h c st) as [E1 E2].
    rewrite Hc in E1, E2. destruct Hst1 as [-> | ->]; assumption. }
  subst st1.
  destruct (load_config_after_guard l cfg st Hl) as (cfg1 & Hc1 & _ & Hcl).
  assert (Hl1 : configs (install_client_effect (Some l) st) !! l = Some cfg1).
  { unfold load_config in Hc1.
    destruct (configs (install_client_effect (Some l) st) !! l); congruence. }
  destruct (install_client_effect_configs (Some l) st l cfg Hl) as (cfg1' & Hl1' & I).
  rewrite Hl1 in Hl1'. injection Hl1' as <-.
  exists cfg1. split; [exact Hl1|]. split; [exact Hcl|]. split; [exact I|].
  destruct (run_ops_frame parse_rest setFragment os (install_client_effect (Some l) st))
    as (_ & _ & F).
  destruct (F l cfg1 Hl1) as (cfg2 & H2 & (_ & _ & _ & _ & _ & I2)).
  rewrite H2. f_equal. apply I2, Hcl.
Qed.

(** X8. Bucket(name) on a nil S3 pointer does not panic: it returns a new
    bucket. GetReader and PutWriter on that bucket then panic with a nil
    dereference, after the nil-client guard has run. *)
Theorem Bucket_of_nil_account_panics_on_use (n path : string) (h : Header) (st : State)
    (l : loc) (cfg : Config) :
  configs st !! l = Some cfg ->
  let '(st1, r) := S3_Bucket None n st in
  exists bl, r = Ret (Some bl) /\
    GetReader (Some bl) path (Some l) st1 =
      (install_client_effect (Some l) st1, Panic nil_dereference) /\
    PutWriter (Some bl) path h (Some l) st1 =
      (install_client_effect (Some l) st1, Panic nil_dereference).
Proof.
  intros Hl. unfold S3_Bucket, alloc_bucket, fresh, mbind.
  cbn -[install_client_effect Bucket_GetReader Bucket_PutWriter].
  exists (next_loc st). split; [reflexivity|].
  apply (unusable_bucket_panics _ path h _ _ l cfg); [reflexivity | exact Hl |].
  right. exists (mkBucket None n). unfold load_bucket. simpl.
  rewrite lookup_insert_eq. split; reflexivity.
Qed.

End Facade.

(* ------------------------------------------------------------------ *)
(** ** Concrete runs of the further properties *)

Lemma Url_pure_and_nil_panics_witness :
  snd (load_bucket None example_state) = Panic nil_dereference /\
  fst (Bucket_Url pr sf None "key" (Some 7%nat) example_state) = example_state /\
  Bucket_Url pr sf None "key" (Some 7%nat) example_state = (example_state, Panic nil_dereference).
Proof.
  assert (Hb : snd (load_bucket None example_state) = Panic nil_dereference) by reflexivity.
  split; [exact Hb|].
  destruct (Url_pure_and_nil_panics pr sf None "key" (Some 7%nat) example_state) as [A B].
  split; [exact A | apply B; right; left; exact Hb].
Defined.

Lemma GetReader_PutWriter_unusable_bucket_witness :
  Some 7%nat = Some 7%nat /\ configs example_state !! 7%nat = Some example_config /\
  snd (load_bucket None example_state) = Panic nil_dereference /\
  Bucket_GetReader pr sf None "key" (Some 7%nat) example_state =
    (install_client_effect (Some 7%nat) example_state, Panic nil_dereference) /\
  Bucket_PutWriter pr sf None "key" example_header (Some 7%nat) example_state =
    (install_client_effect (Some 7%nat) example_state, Panic nil_dereference).
Proof.
  assert (Hl : configs example_state !! 7%nat = Some example_config) by reflexivity.
  assert (Hb : snd (load_bucket None example_state) = Panic nil_dereference) by reflexivity.
  split; [reflexivity|]. split; [exact Hl|]. split; [exact Hb|].
  exact (GetReader_PutWriter_unusable_bucket pr sf None "key" example_header (Some 7%nat)
           example_state 7%nat example_config eq_refl Hl (or_introl Hb)).
Defined.

Lemma nil_config_with_nil_DefaultConfig_witness :
  let st := mkState (configs example_state) (clients example_state) (s3s example_state)
              (buckets example_state) (next_loc example_state) None
              (DefaultDomain example_state) in
  DefaultConfig st = None /\
  Bucket_GetReader pr sf (Some 2%nat) "key" None st = (st, Panic nil_dereference) /\
  Bucket_PutWriter pr sf (Some 2%nat) "key" example_header None st = (st, Panic nil_dereference).
Proof.
  intros st. assert (Hd : DefaultConfig st = None) by reflexivity.
  split; [exact Hd|].
  exact (nil_config_with_nil_DefaultConfig pr sf (Some 2%nat) "key" example_header st Hd).
Defined.

Lemma Client_fixed_after_first_use_witness :
  let os := [OpPutWriter (Some 2%nat) "other" example_header (Some 7%nat);
             OpGetReader (Some 2%nat) "key" None] in
  configs example_state !! 7%nat = Some example_config /\
  let st1 := fst (Bucket_GetReader pr sf (Some 2%nat) "key" (Some 7%nat) example_state) in
  exists cfg1, configs st1 !! 7%nat = Some cfg1 /\ Client cfg1 <> None /\
    client_installed example_config cfg1 /\
    configs (run_ops pr sf os st1) !! 7%nat = Some cfg1.
Proof.
  intros os. assert (Hl : configs example_state !! 7%nat = Some example_config) by reflexivity.
  split; [exact Hl|].
  exact (Client_fixed_after_first_use pr sf (Some 2%nat) "key" [] (Some 7%nat) example_state
           7%nat example_config os eq_refl Hl _ (or_introl eq_refl)).
Defined.

Lemma Bucket_of_nil_account_panics_on_use_witness :
  configs example_state !! 7%nat = Some example_config /\
  let '(st1, r) := S3_Bucket None "orphan" example_state in
  exists bl, r = Ret (Some bl) /\
    Bucket_GetReader pr sf (Some bl) "key" (Some 7%nat) st1 =
      (install_client_effect (Some 7%nat) st1, Panic nil_dereference) /\
    Bucket_PutWriter pr sf (Some bl) "key" example_header (Some 7%nat) st1 =
      (install_client_effect (Some 7%nat) st1, Panic nil_dereference).
Proof.
  assert (Hl : configs example_state !! 7%nat = Some example_config) by reflexivity.
  split; [exact Hl|].
  exact (Bucket_of_nil_account_panics_on_use pr sf "orphan" "key" example_header example_state
           7%nat example_config Hl).
Defined.
